(** * Bat steering and Player locomotion of the CS409 disk-world game

    A shallow embedding of [Bat] (entities/bat.ts) and [Player]
    (entities/player.ts) together with the parts of gl-matrix they call.

    Numbers.  A JavaScript [number] is idealised as a real number: the
    arithmetic of the program is read over [R], so rounding, infinities and
    NaN are outside the model.  Comparisons are decided with [Rlt_dec] and
    [Rgt_dec].

    Objects.  A gl-matrix vector is a small array that the library mutates
    through its [out] argument.  Where every use writes the whole vector the
    call is read as a function returning the new contents of [out]; where
    the old contents of [out] can survive ([normalize]) [out] is an argument.
    The two module-level [vec2] scratch objects of player.ts are shared
    between a variable and a reference and are modelled as a store. *)

From Stdlib Require Import Reals Lra Psatz Bool List.
Import ListNotations.

Open Scope R_scope.

(** ** Vectors *)

Record vec3 : Type := mkvec3 { c0 : R; c1 : R; c2 : R }.
Record vec2 : Type := mkvec2 { d0 : R; d1 : R }.

(** ** gl-matrix (2.x), [vec3] and [vec2]

    The library is a dependency of the repository; the operations are read
    from its 2.x sources, the release line the code was written against. *)

Module Vec3.

Definition create : vec3 := mkvec3 0 0 0.
Definition fromValues (x y z : R) : vec3 := mkvec3 x y z.
Definition clone (a : vec3) : vec3 := a.
Definition copy (a : vec3) : vec3 := a.
Definition set (x y z : R) : vec3 := mkvec3 x y z.

Definition add (a b : vec3) : vec3 :=
  mkvec3 (c0 a + c0 b) (c1 a + c1 b) (c2 a + c2 b).
Definition sub (a b : vec3) : vec3 :=
  mkvec3 (c0 a - c0 b) (c1 a - c1 b) (c2 a - c2 b).
Definition scale (a : vec3) (b : R) : vec3 :=
  mkvec3 (c0 a * b) (c1 a * b) (c2 a * b).
Definition scaleAndAdd (a b : vec3) (s : R) : vec3 :=
  mkvec3 (c0 a + c0 b * s) (c1 a + c1 b * s) (c2 a + c2 b * s).

Definition squaredLength (a : vec3) : R :=
  c0 a * c0 a + c1 a * c1 a + c2 a * c2 a.
Definition length (a : vec3) : R := sqrt (squaredLength a).

(** [normalize(out, a)]: the components of [out] are written only when
    the squared length of [a] is positive; otherwise [out] keeps what it
    held. *)
Definition normalize (out a : vec3) : vec3 :=
  let len := squaredLength a in
  if Rgt_dec len 0 then
    let len := 1 / sqrt len in
    mkvec3 (c0 a * len) (c1 a * len) (c2 a * len)
  else out.

(** Writes to one index of the array: [v[0] = x], [v[1] = x], [v[2] = x]. *)
Definition set0 (v : vec3) (x : R) : vec3 := mkvec3 x (c1 v) (c2 v).
Definition set1 (v : vec3) (x : R) : vec3 := mkvec3 (c0 v) x (c2 v).
Definition set2 (v : vec3) (x : R) : vec3 := mkvec3 (c0 v) (c1 v) x.

Definition negate (a : vec3) : vec3 := mkvec3 (- c0 a) (- c1 a) (- c2 a).

(** [rotateY(out, a, b, c)]: [a] turned by [c] radians about the vertical
    axis through [b]. *)
Definition rotateY (a b : vec3) (c : R) : vec3 :=
  let p0 := c0 a - c0 b in
  let p1 := c1 a - c1 b in
  let p2 := c2 a - c2 b in
  let r0 := p2 * sin c + p0 * cos c in
  let r1 := p1 in
  let r2 := p2 * cos c - p0 * sin c in
  mkvec3 (r0 + c0 b) (r1 + c1 b) (r2 + c2 b).

End Vec3.

Module Vec2.
Definition create : vec2 := mkvec2 0 0.
Definition set (x y : R) : vec2 := mkvec2 x y.
End Vec2.

(** ** helpers/mathhelper.ts *)

Module MathHelper.

(** Modelled from the spec: [MathHelper.vec3_truncate] (helpers/mathhelper.ts
    is not among the sources).  The vector is returned unchanged when its
    magnitude is at most [max]; otherwise its direction is kept and its
    magnitude becomes [max]. *)
Definition vec3_truncate (a : vec3) (max : R) : vec3 :=
  if Rgt_dec (Vec3.length a) max
  then Vec3.scale (Vec3.normalize Vec3.create a) max
  else a.

(** Modelled from the spec: [MathHelper.vec2_rotate] (a 2D rotation helper),
    the rotation of [a] by [angle] radians about the origin. *)
Definition vec2_rotate (a : vec2) (angle : R) : vec2 :=
  mkvec2 (d0 a * cos angle - d1 a * sin angle)
         (d0 a * sin angle + d1 a * cos angle).

End MathHelper.

(** ** The world, as the entities see it

    entities/world.ts is not among the sources: a world is the record of the
    terrain queries that [Bat] and [Player] call on it, each a function of
    its arguments that writes to none of them.  The random draw of
    [getRandomXZPosition] is an argument of the operations that use it. *)

Module World.

Record t : Type := mk {
  isCylinderCollisionWithDisk : vec3 -> R -> R -> bool;
  isOnDisk : R -> R -> R -> bool;
  getHeightAtCirclePosition : R -> R -> R -> R;
  getHeightAtPointPosition : R -> R -> R;
  getFrictionAtPosition : R -> R -> R;
  getSlopeFactorAtPosition : R -> R -> R
}.

End World.

(** ** entities/player.ts *)

Module Player.

(** The animation states the controller signals to its model. *)
Inductive Player_State : Type := Standing | Falling | Jumping.

(** The part of [PlayerModel] the controller reads and writes. *)
Record PlayerModel : Type := mkModel {
  model_radius : R;
  model_half_height : R;
  model_state : Player_State
}.

Definition setState (m : PlayerModel) (s : Player_State) : PlayerModel :=
  mkModel (model_radius m) (model_half_height m) s.

Record t : Type := mk {
  position : vec3;
  forward : vec3;
  model : PlayerModel;
  velocity : vec3;
  jumping : bool;
  radius : R;
  half_height : R
}.

Definition set_position (p : t) (v : vec3) : t :=
  mk v (forward p) (model p) (velocity p) (jumping p) (radius p) (half_height p).
Definition set_model (p : t) (m : PlayerModel) : t :=
  mk (position p) (forward p) m (velocity p) (jumping p) (radius p) (half_height p).
Definition set_velocity (p : t) (v : vec3) : t :=
  mk (position p) (forward p) (model p) v (jumping p) (radius p) (half_height p).
Definition set_jumping (p : t) (j : bool) : t :=
  mk (position p) (forward p) (model p) (velocity p) j (radius p) (half_height p).

Definition JUMP_UP_SPEED : R := 12.0.
Definition JUMP_FORWARD_SPEED : R := 8.0.
Definition GRAVITY : vec3 := Vec3.fromValues 0 (-9.8) 0.

(** *** Module-level scratch objects

    [old_pos], [new_pos] and [accel] are only ever written whole and read
    back by the same call.  [dir] and [min_direction] are two [vec2]
    objects; the variable [dir] always refers to the first, the variable
    [min_direction] is reassigned by [update] and so holds a reference. *)
Inductive vec2_obj : Type := obj_dir | obj_min_direction.

Record module_state : Type := mkms {
  old_pos : vec3;
  new_pos : vec3;
  accel : vec3;
  heap_dir : vec2;
  heap_min_direction : vec2;
  min_direction : vec2_obj
}.

Definition initial_module_state : module_state :=
  mkms Vec3.create Vec3.create Vec3.create Vec2.create Vec2.create
       obj_min_direction.

Definition read (ms : module_state) (r : vec2_obj) : vec2 :=
  match r with
  | obj_dir => heap_dir ms
  | obj_min_direction => heap_min_direction ms
  end.

Definition write (ms : module_state) (r : vec2_obj) (v : vec2) : module_state :=
  match r with
  | obj_dir =>
      mkms (old_pos ms) (new_pos ms) (accel ms) v (heap_min_direction ms)
           (min_direction ms)
  | obj_min_direction =>
      mkms (old_pos ms) (new_pos ms) (accel ms) (heap_dir ms) v
           (min_direction ms)
  end.

Definition set_old_pos (ms : module_state) (v : vec3) : module_state :=
  mkms v (new_pos ms) (accel ms) (heap_dir ms) (heap_min_direction ms)
       (min_direction ms).
Definition set_new_pos (ms : module_state) (v : vec3) : module_state :=
  mkms (old_pos ms) v (accel ms) (heap_dir ms) (heap_min_direction ms)
       (min_direction ms).
Definition set_accel (ms : module_state) (v : vec3) : module_state :=
  mkms (old_pos ms) (new_pos ms) v (heap_dir ms) (heap_min_direction ms)
       (min_direction ms).
Definition set_min_direction (ms : module_state) (r : vec2_obj) : module_state :=
  mkms (old_pos ms) (new_pos ms) (accel ms) (heap_dir ms)
       (heap_min_direction ms) r.

Definition getVelocity (p : t) : vec3 := velocity p.

(** [addAcceleration(a)] *)
Definition addAcceleration (p : t) (a : vec3) : t :=
  if negb (jumping p) then set_velocity p (Vec3.add (velocity p) a) else p.

(** [jump()] *)
Definition jump (p : t) : t :=
  if jumping p then p
  else
    let p := set_velocity p (Vec3.set 0 JUMP_UP_SPEED 0) in
    let p := set_velocity p
               (Vec3.scaleAndAdd (velocity p) (forward p) JUMP_FORWARD_SPEED) in
    let p := set_model p (setState (model p) Jumping) in
    set_jumping p true.

(** [hitByBat(bat_velocity)].  The argument is an object of the caller; the
    result carries the player after the call and the contents of that
    object after the call.  The player's own [velocity] is a different
    object. *)
Definition hitByBat (p : t) (bat_velocity : vec3) : t * vec3 :=
  if jumping p then
    let bat_velocity := Vec3.normalize bat_velocity bat_velocity in
    (set_velocity p (Vec3.scaleAndAdd (velocity p) bat_velocity 7.0),
     bat_velocity)
  else
    let p := set_velocity p (Vec3.copy bat_velocity) in
    let p := set_velocity p (Vec3.set1 (velocity p) 0) in
    let p := set_velocity p
               (Vec3.scale (Vec3.normalize (velocity p) (velocity p)) 5.0) in
    let p := set_velocity p (Vec3.set1 (velocity p) 5.0) in
    let p := set_model p (setState (model p) Jumping) in
    (set_jumping p true, bat_velocity).

(** [Math.pow] on a positive base. *)
Definition Math_pow (x y : R) : R := Rpower x y.

(** One turn of the loop [for (let i = 0; i < 60; i++)] of [update]: the
    loop carries the store and the local [min_height]. *)
Definition slope_sample (world : World.t) (x z : R)
    (st : module_state * R) (i : nat) : module_state * R :=
  let (ms, min_height) := st in
  let ms := write ms obj_dir (Vec2.set 1 0) in
  let ms := write ms obj_dir
              (MathHelper.vec2_rotate (read ms obj_dir)
                 (PI * 2 * (INR i / 60))) in
  let h := World.getHeightAtPointPosition world
             (x + d0 (read ms obj_dir) * 0.01)
             (z + d1 (read ms obj_dir) * 0.01) in
  if Rlt_dec h min_height
  then (set_min_direction ms obj_dir, h)
  else (ms, min_height).

Definition slope_loop (world : World.t) (x z : R)
    (st : module_state * R) : module_state * R :=
  fold_left (slope_sample world x z) (seq 0 60) st.

(** [update(world, delta_time_ms)] *)
Definition update (world : World.t) (delta_time_ms : R)
    (st : module_state * t) : module_state * t :=
  let (ms, p) := st in
  let delta_time_s := delta_time_ms / 1000 in
  let ms := set_old_pos ms (Vec3.copy (position p)) in
  let ms := set_new_pos ms
              (Vec3.scaleAndAdd (position p) (velocity p) delta_time_s) in
  let player_base_y :=
    World.getHeightAtCirclePosition world
      (c0 (new_pos ms)) (c2 (new_pos ms)) (model_radius (model p)) in
  let player_y := player_base_y + model_half_height (model p) in
  let (ms, p) :=
    if jumping p then
      let p := set_velocity p
                 (Vec3.scaleAndAdd (velocity p) GRAVITY delta_time_s) in
      if World.isCylinderCollisionWithDisk world (new_pos ms)
           (model_radius (model p)) (model_half_height (model p))
      then
        if World.isCylinderCollisionWithDisk world (old_pos ms)
             (model_radius (model p)) (model_half_height (model p))
        then
          (* Collided from above disk. stop falling *)
          let p := set_jumping p false in
          let p := set_model p (setState (model p) Standing) in
          let p := set_velocity p (Vec3.set1 (velocity p) 0) in
          let ms := set_new_pos ms (Vec3.set1 (new_pos ms) player_y) in
          (ms, p)
        else
          (* Collided with side of disk. Stop forward velocity *)
          let p := set_velocity p (Vec3.set2 (velocity p) 0) in
          let p := set_velocity p (Vec3.set0 (velocity p) 0) in
          let ms := set_new_pos ms (Vec3.set0 (new_pos ms) (c0 (old_pos ms))) in
          let ms := set_new_pos ms (Vec3.set2 (new_pos ms) (c2 (old_pos ms))) in
          (ms, p)
      else (ms, p)
    else
      (* Not jumping *)
      if World.isOnDisk world (c0 (new_pos ms)) (c2 (new_pos ms))
           (model_radius (model p))
      then
        (* Not Falling *)
        let ms := set_new_pos ms (Vec3.set1 (new_pos ms) player_y) in
        let p := set_velocity p (Vec3.set1 (velocity p) 0) in
        (* Apply friction *)
        let friction :=
          World.getFrictionAtPosition world (c0 (new_pos ms)) (c2 (new_pos ms)) in
        let p := set_velocity p
                   (Vec3.scale (velocity p) (Math_pow friction delta_time_s)) in
        (* Apply Sliding *)
        let min_slope :=
          World.getSlopeFactorAtPosition world
            (c0 (new_pos ms)) (c2 (new_pos ms)) in
        let min_height := player_base_y in
        let ms := write ms (min_direction ms) (Vec2.set 0 0) in
        let (ms, min_height) :=
          slope_loop world (c0 (new_pos ms)) (c2 (new_pos ms))
            (ms, min_height) in
        let slope := (player_base_y - min_height) / 0.01 in
        if Rgt_dec slope min_slope then
          let a := (slope - min_slope) * 10.0 * delta_time_s in
          let ms := set_accel ms
                      (Vec3.set (d0 (read ms (min_direction ms))) 0
                                (d1 (read ms (min_direction ms)))) in
          let ms := set_accel ms (Vec3.scale (accel ms) a) in
          (ms, addAcceleration p (accel ms))
        else (ms, p)
      else
        (* Start Falling *)
        let p := set_jumping p true in
        let p := set_model p (setState (model p) Falling) in
        (ms, p)
  in
  (ms, set_position p (Vec3.copy (new_pos ms))).

Definition TURNING_DEGREES : R := 3.0.
Definition ACCEL_FORWARD : R := 25.0.

Definition set_forward (p : t) (v : vec3) : t :=
  mk (position p) v (model p) (velocity p) (jumping p) (radius p) (half_height p).

(** [rotate(angle)] *)
Definition rotate (angle : R) (p : t) : t :=
  set_forward p (Vec3.rotateY (forward p) (mkvec3 0 0 0) (angle * 2)).

(** [accelerateForward(delta_time_ms, speed_factor)] *)
Definition accelerateForward (delta_time_ms speed_factor : R)
    (st : module_state * t) : module_state * t :=
  let (ms, p) := st in
  let ms := set_accel ms (Vec3.copy (forward p)) in
  let ms := set_accel ms
              (Vec3.scale (accel ms)
                 (ACCEL_FORWARD * delta_time_ms / 1000 * speed_factor)) in
  (ms, addAcceleration p (accel ms)).

(** [accelerateBackward(delta_time_ms, speed_factor)] *)
Definition accelerateBackward (delta_time_ms speed_factor : R)
    (st : module_state * t) : module_state * t :=
  let (ms, p) := st in
  let ms := set_accel ms (Vec3.copy (forward p)) in
  let ms := set_accel ms (Vec3.negate (accel ms)) in
  let ms := set_accel ms
              (Vec3.scale (accel ms)
                 (ACCEL_FORWARD * delta_time_ms / 1000 * speed_factor)) in
  (ms, addAcceleration p (accel ms)).

(** [turnLeft(delta_time_ms)] *)
Definition turnLeft (delta_time_ms : R) (p : t) : t :=
  let amount := TURNING_DEGREES * delta_time_ms / 1000 in
  set_forward p (Vec3.rotateY (forward p) (mkvec3 0 0 0) amount).

(** [turnRight(delta_time_ms)] *)
Definition turnRight (delta_time_ms : R) (p : t) : t :=
  let amount := TURNING_DEGREES * delta_time_ms / 1000 in
  set_forward p (Vec3.rotateY (forward p) (mkvec3 0 0 0) (- amount)).

(** [transitionAnimationTo(state)] *)
Definition transitionAnimationTo (state : Player_State) (p : t) : t :=
  if negb (jumping p) then set_model p (setState (model p) state) else p.

End Player.

(** The quantities the sliding loop of [Player.update] works with. *)

Module Sliding.

(** The contents of [dir] after the two writes of turn [i]. *)
Definition sample_dir (i : nat) : vec2 :=
  MathHelper.vec2_rotate (Vec2.set 1 0) (PI * 2 * (INR i / 60)).

(** The height [h] sampled in turn [i] around [(x, z)]. *)
Definition sample_height (world : World.t) (x z : R) (i : nat) : R :=
  World.getHeightAtPointPosition world
    (x + d0 (sample_dir i) * 0.01) (z + d1 (sample_dir i) * 0.01).

(** The local [min_height] after the turns [l], started at [m]. *)
Definition lowest (world : World.t) (x z : R) (l : list nat) (m : R) : R :=
  fold_left (fun m i => if Rlt_dec (sample_height world x z i) m
                        then sample_height world x z i else m) l m.

End Sliding.

(** ** entities/bat.ts *)

Module Bat.

Inductive Bat_State : Type := DEAD | PURSUE | EXPLORE.

Record t : Type := mk {
  position : vec3;
  forward : vec3;
  radius : R;
  half_height : R;
  state : Bat_State;
  velocity : vec3;
  target_position : vec3;
  ignore_timer : R
}.

Definition set_position (b : t) (v : vec3) : t :=
  mk v (forward b) (radius b) (half_height b) (state b) (velocity b)
     (target_position b) (ignore_timer b).
Definition set_forward (b : t) (v : vec3) : t :=
  mk (position b) v (radius b) (half_height b) (state b) (velocity b)
     (target_position b) (ignore_timer b).
Definition set_state (b : t) (s : Bat_State) : t :=
  mk (position b) (forward b) (radius b) (half_height b) s (velocity b)
     (target_position b) (ignore_timer b).
Definition set_velocity (b : t) (v : vec3) : t :=
  mk (position b) (forward b) (radius b) (half_height b) (state b) v
     (target_position b) (ignore_timer b).
Definition set_target_position (b : t) (v : vec3) : t :=
  mk (position b) (forward b) (radius b) (half_height b) (state b)
     (velocity b) v (ignore_timer b).
Definition set_ignore_timer (b : t) (x : R) : t :=
  mk (position b) (forward b) (radius b) (half_height b) (state b)
     (velocity b) (target_position b) x.

Definition S_MAX : R := 5.0.
Definition S_MIN : R := 1.0.
Definition A_MAX : R := 8.0.

(** [constructor(position, model, player, world)].  The entity's initial
    [forward] comes from the base class, the two [Random.randf(0, S_MAX)]
    draws and the draw of [world.getRandomXZPosition()] from the
    environment; [ignore_timer] starts at its field initialiser. *)
Definition constructor (position entity_forward : vec3)
    (model_radius model_half_height : R)
    (randf1 randf2 : R) (random_xz : vec3) : t :=
  let velocity := Vec3.fromValues randf1 0 randf2 in
  mk (Vec3.clone position)
     (Vec3.normalize entity_forward velocity)
     model_radius model_half_height EXPLORE velocity
     (Vec3.set1 random_xz 15.0) 0.

(** [seek(delta_s)] *)
Definition seek (delta_s : R) (b : t) : t :=
  let R := Vec3.sub (target_position b) (position b) in
  let D := Vec3.normalize Vec3.create R in
  let D := Vec3.scale D S_MAX in
  let S := Vec3.sub D (velocity b) in
  let A_desired := Vec3.scale S (1 / delta_s) in
  let A := MathHelper.vec3_truncate A_desired A_MAX in
  (* velocity = truncate(velocity + A * delta_s, S_MAX) *)
  let b := set_velocity b
             (MathHelper.vec3_truncate
                (Vec3.scaleAndAdd (velocity b) A delta_s) S_MAX) in
  let b := set_position b
             (Vec3.scaleAndAdd (position b) (velocity b) delta_s) in
  set_forward b (Vec3.normalize (forward b) (velocity b)).

Section Update.

(** helpers/collision.ts is not among the sources:
    [Collision.cylinderIntersection] is a parameter. *)
Variable cylinderIntersection : vec3 -> R -> R -> vec3 -> R -> R -> bool.

(** The collaborators a bat holds ([this.world], [this.player]) and the
    draw [world.getRandomXZPosition()] would return during the call. *)
Variable world : World.t.
Variable player : Player.t.
Variable random_xz : vec3.

(** [explore(delta_s)] *)
Definition explore (delta_s : R) (b : t) : t :=
  let b :=
    if cylinderIntersection (position b) (radius b) (half_height b)
         (target_position b) 2.0 1.0
    then
      let b := set_target_position b random_xz in
      set_target_position b (Vec3.set1 (target_position b) 15.0)
    else b in
  seek delta_s b.

(** [pursue(delta_s)] *)
Definition pursue (delta_s : R) (b : t) : t :=
  let D := Vec3.sub (Player.position player) (position b) in
  let s := Vec3.length D * 0.3 in
  let T := Vec3.scaleAndAdd (Player.position player)
             (Player.getVelocity player) s in
  let b := set_target_position b (Vec3.clone T) in
  seek delta_s b.

(** [update(delta_ms)] *)
Definition update (delta_ms : R) (b : t) : t :=
  let delta_s := delta_ms / 1000 in
  match state b with
  | DEAD => b
  | _ =>
      let b := set_ignore_timer b (ignore_timer b - delta_s) in
      let b := if Rlt_dec (ignore_timer b) 0
               then set_ignore_timer b 0 else b in
      if World.isCylinderCollisionWithDisk world (position b) (radius b) 0
      then
        let b := set_state b DEAD in
        set_ignore_timer b 1.0
      else
        let b :=
          if cylinderIntersection (position b) (radius b + 20)
               (half_height b + 20) (Player.position player)
               (Player.radius player) (Player.half_height player)
          then set_state b PURSUE
          else set_state b EXPLORE in
        match state b with
        | EXPLORE => explore delta_s b
        | PURSUE => pursue delta_s b
        | DEAD => b
        end
  end.

End Update.

End Bat.

(** ** helpers/collision.ts and a world of flat disks, for concrete scenes *)

Definition Rleb (x y : R) : bool := if Rle_dec x y then true else false.

Module Collision.

(** Modelled from the spec: [Collision.cylinderIntersection]
    (helpers/collision.ts is not among the sources).  Two upright
    cylinders, each given by its centre, radius and half-height, meet when
    their axes are no further apart than the sum of the radii and their
    centres are vertically no further apart than the sum of the
    half-heights. *)
Definition cylinderIntersection (p1 : vec3) (r1 h1 : R)
    (p2 : vec3) (r2 h2 : R) : bool :=
  Rleb ((c0 p1 - c0 p2) * (c0 p1 - c0 p2) + (c2 p1 - c2 p2) * (c2 p1 - c2 p2))
       ((r1 + r2) * (r1 + r2))
  && Rleb (Rabs (c1 p1 - c1 p2)) (h1 + h2).

End Collision.

Module DiskWorld.

(** A disk: the centre of its top surface and its radius. *)
Record Disk : Type := mkDisk { disk_position : vec3; disk_radius : R }.

Definition covers (d : Disk) (x z r : R) : bool :=
  Collision.cylinderIntersection (mkvec3 x (c1 (disk_position d)) z) r 0
    (disk_position d) (disk_radius d) 0.

(** The height reported where no disk lies under the query. *)
Definition NO_TERRAIN : R := -1000000.

Fixpoint heightAt (disks : list Disk) (x z r : R) : R :=
  match disks with
  | [] => NO_TERRAIN
  | d :: rest =>
      if covers d x z r
      then Rmax (c1 (disk_position d)) (heightAt rest x z r)
      else heightAt rest x z r
  end.

(** Modelled from the spec: the terrain queries of [World]
    (entities/world.ts is not among the sources) over flat disks of
    friction [friction] and slope threshold [slope_factor].  A cylinder
    collides with a disk when it meets the disk's top surface, taken as a
    cylinder of half-height zero. *)
Definition world (disks : list Disk) (friction slope_factor : R) : World.t :=
  World.mk
    (fun position radius half_height =>
       existsb (fun d =>
                  Collision.cylinderIntersection position radius half_height
                    (disk_position d) (disk_radius d) 0) disks)
    (fun x z radius => existsb (fun d => covers d x z radius) disks)
    (fun x z radius => heightAt disks x z radius)
    (fun x z => heightAt disks x z 0)
    (fun _ _ => friction)
    (fun _ _ => slope_factor).

End DiskWorld.

(** ** The game loop around a bat, and concrete scenes *)

Module Game.

(** What one frame hands to a bat's [update]: the world and the player it
    holds as they are during the call, the draw of
    [world.getRandomXZPosition()], and the frame time in milliseconds. *)
Record frame : Type := mkFrame {
  frame_world : World.t;
  frame_player : Player.t;
  frame_random_xz : vec3;
  frame_delta_ms : R
}.

Definition step
    (cylinderIntersection : vec3 -> R -> R -> vec3 -> R -> R -> bool)
    (b : Bat.t) (f : frame) : Bat.t :=
  Bat.update cylinderIntersection (frame_world f) (frame_player f)
    (frame_random_xz f) (frame_delta_ms f) b.

(** Successive calls of [update], one per frame. *)
Definition run
    (cylinderIntersection : vec3 -> R -> R -> vec3 -> R -> R -> bool)
    (frames : list frame) (b : Bat.t) : Bat.t :=
  fold_left (step cylinderIntersection) frames b.

End Game.

Module Scene.

(** One flat disk of radius 5 whose top is at height 0. *)
Definition disk : DiskWorld.Disk := DiskWorld.mkDisk (mkvec3 0 0 0) 5.
Definition world : World.t := DiskWorld.world [disk] 1 0.5.

(** A player standing at the centre of the disk. *)
Definition player : Player.t :=
  Player.mk (mkvec3 0 0.8 0) (mkvec3 1 0 0)
    (Player.mkModel 0.25 0.8 Player.Standing)
    (mkvec3 0 0 0) false 0.25 0.8.

Definition frame : Game.frame :=
  Game.mkFrame world player (mkvec3 3 0 4) 16.

(** A bat exploring high above the disk, faster than [S_MAX]. *)
Definition bat_fast : Bat.t :=
  Bat.mk (mkvec3 0 15 0) (mkvec3 1 0 0) 0.7 0.1 Bat.EXPLORE
    (mkvec3 30 0 40) (mkvec3 40 15 0) 0.

(** A bat that has died on the disk. *)
Definition bat_dead : Bat.t :=
  Bat.mk (mkvec3 0 0 0) (mkvec3 1 0 0) 0.7 0.1 Bat.DEAD
    (mkvec3 3 0 0) (mkvec3 40 15 0) 0.5.

(** A bat whose centre is 0.05 above the disk: its cylinder, of
    half-height 0.1, reaches below the disk's top. *)
Definition bat_low : Bat.t :=
  Bat.mk (mkvec3 0 0.05 0) (mkvec3 1 0 0) 0.7 0.1 Bat.EXPLORE
    (mkvec3 3 0 0) (mkvec3 40 15 0) 0.

(** A bat whose centre lies in the plane of the disk's top. *)
Definition bat_touching : Bat.t :=
  Bat.mk (mkvec3 0 0 0) (mkvec3 1 0 0) 0.7 0.1 Bat.PURSUE
    (mkvec3 3 0 0) (mkvec3 40 15 0) 0.

(** A bat at rest exactly on its target. *)
Definition bat_still : Bat.t :=
  Bat.mk (mkvec3 0 15 0) (mkvec3 0 0 1) 0.7 0.1 Bat.EXPLORE
    (mkvec3 0 0 0) (mkvec3 0 15 0) 0.

(** A bat at rest, 40 away from its target. *)
Definition bat_resting : Bat.t :=
  Bat.mk (mkvec3 0 15 0) (mkvec3 0 0 1) 0.7 0.1 Bat.EXPLORE
    (mkvec3 0 0 0) (mkvec3 40 15 0) 0.

(** The player a frame before touching down: airborne just above the
    disk, falling straight down. *)
Definition player_falling : Player.t :=
  Player.mk (mkvec3 0 0.7 0) (mkvec3 1 0 0)
    (Player.mkModel 0.25 0.8 Player.Falling)
    (mkvec3 0 (-5) 0) true 0.25 0.8.

(** A platform whose surface is level for [x <= 0] and falls at 45
    degrees for [x > 0].  The highest point under a circle is its point of
    least [x]; friction is 1 and the slope threshold 0.5. *)
Definition ramp_height (x z : R) : R := if Rle_dec x 0 then 0 else - x.

Definition ramp : World.t :=
  World.mk (fun _ _ _ => false) (fun _ _ _ => true)
    (fun x z radius => ramp_height (x - radius) z)
    ramp_height (fun _ _ => 1) (fun _ _ => 0.5).

End Scene.

(** * Properties *)

(** ** Vector arithmetic *)

Lemma vec3_ext (a b : vec3) :
  c0 a = c0 b -> c1 a = c1 b -> c2 a = c2 b -> a = b.
Proof. destruct a, b; simpl; intros -> -> ->; reflexivity. Qed.

Lemma squaredLength_nonneg (a : vec3) : 0 <= Vec3.squaredLength a.
Proof. unfold Vec3.squaredLength; nra. Qed.

Lemma length_nonneg (a : vec3) : 0 <= Vec3.length a.
Proof. apply sqrt_pos. Qed.

Lemma squaredLength_zero (a : vec3) :
  Vec3.squaredLength a = 0 <-> a = mkvec3 0 0 0.
Proof.
  destruct a as [x y z]; unfold Vec3.squaredLength; simpl; split.
  - intros H. assert (x = 0) by nra. assert (y = 0) by nra.
    assert (z = 0) by nra. subst; reflexivity.
  - intros H; injection H as -> -> ->; ring.
Qed.

Lemma squaredLength_pos (a : vec3) :
  a <> mkvec3 0 0 0 -> Vec3.squaredLength a > 0.
Proof.
  intros Ha. destruct (squaredLength_nonneg a) as [H | H]; [lra |].
  exfalso; apply Ha, squaredLength_zero; auto.
Qed.

Lemma length_scale (a : vec3) (k : R) :
  Vec3.length (Vec3.scale a k) = Rabs k * Vec3.length a.
Proof.
  unfold Vec3.length.
  replace (Vec3.squaredLength (Vec3.scale a k))
    with (k * k * Vec3.squaredLength a)
    by (unfold Vec3.squaredLength, Vec3.scale; simpl; ring).
  rewrite sqrt_mult by (try apply squaredLength_nonneg; nra).
  f_equal. replace (k * k) with (Rsqr k) by reflexivity. apply sqrt_Rsqr_abs.
Qed.

Lemma normalize_pos (out a : vec3) :
  Vec3.squaredLength a > 0 ->
  Vec3.normalize out a = Vec3.scale a (1 / Vec3.length a).
Proof.
  intros H. unfold Vec3.normalize.
  destruct (Rgt_dec (Vec3.squaredLength a) 0); [reflexivity | contradiction].
Qed.

Lemma normalize_zero (out : vec3) :
  Vec3.normalize out (mkvec3 0 0 0) = out.
Proof.
  unfold Vec3.normalize, Vec3.squaredLength; simpl.
  destruct (Rgt_dec _ 0); [lra | reflexivity].
Qed.

Lemma length_normalize (out a : vec3) :
  Vec3.squaredLength a > 0 -> Vec3.length (Vec3.normalize out a) = 1.
Proof.
  intros H. rewrite normalize_pos by assumption. rewrite length_scale.
  assert (Hl : 0 < Vec3.length a) by (apply sqrt_lt_R0; lra).
  rewrite Rabs_pos_eq.
  - field; lra.
  - apply Rlt_le, Rdiv_lt_0_compat; lra.
Qed.

Lemma truncate_length (a : vec3) (max : R) :
  0 <= max -> Vec3.length (MathHelper.vec3_truncate a max) <= max.
Proof.
  intros Hmax. unfold MathHelper.vec3_truncate.
  destruct (Rgt_dec (Vec3.length a) max) as [Hgt | Hle]; [| lra].
  assert (Hsq : Vec3.squaredLength a > 0).
  { destruct (squaredLength_nonneg a) as [H | H]; [lra |].
    unfold Vec3.length in Hgt; rewrite <- H, sqrt_0 in Hgt; lra. }
  rewrite length_scale, length_normalize, Rabs_pos_eq by assumption. lra.
Qed.

Lemma length_zero : Vec3.length (mkvec3 0 0 0) = 0.
Proof.
  unfold Vec3.length, Vec3.squaredLength; simpl.
  replace (0 * 0 + 0 * 0 + 0 * 0) with 0 by ring. apply sqrt_0.
Qed.

Lemma truncate_zero (max : R) :
  0 <= max -> MathHelper.vec3_truncate (mkvec3 0 0 0) max = mkvec3 0 0 0.
Proof.
  intros H. unfold MathHelper.vec3_truncate. rewrite length_zero.
  destruct (Rgt_dec 0 max); [lra | reflexivity].
Qed.

(** ** The steering step *)

Lemma seek_speed (delta_s : R) (b : Bat.t) :
  Vec3.length (Bat.velocity (Bat.seek delta_s b)) <= Bat.S_MAX.
Proof.
  unfold Bat.seek; simpl. apply truncate_length. unfold Bat.S_MAX; lra.
Qed.

(** C1.  One call of the bat's [seek] with a positive time step ends with a
    velocity of magnitude at most [S_MAX], whatever the velocity, position
    and target it starts from (a starting speed above [S_MAX] included). *)
Theorem seek_velocity_bounded (delta_s : R) (b : Bat.t) :
  delta_s > 0 ->
  Vec3.length (Bat.velocity (Bat.seek delta_s b)) <= Bat.S_MAX.
Proof. intros _. apply seek_speed. Qed.

(** Decides the comparisons of concrete reals a goal branches on. *)
Ltac decide_reals :=
  unfold Rleb, Rabs;
  repeat match goal with
         | |- context [Rcase_abs ?x] => destruct (Rcase_abs x); try lra
         | |- context [Rle_dec ?x ?y] => destruct (Rle_dec x y); try lra
         | |- context [Rlt_dec ?x ?y] => destruct (Rlt_dec x y); try lra
         | |- context [Rgt_dec ?x ?y] => destruct (Rgt_dec x y); try lra
         end;
  simpl; try reflexivity; try discriminate; try lra.

(** ** The bat's state machine *)

Lemma seek_state (delta_s : R) (b : Bat.t) :
  Bat.state (Bat.seek delta_s b) = Bat.state b.
Proof. reflexivity. Qed.

Lemma update_dead ci world player random_xz delta_ms (b : Bat.t) :
  Bat.state b = Bat.DEAD ->
  Bat.update ci world player random_xz delta_ms b = b.
Proof. intros H. unfold Bat.update. rewrite H. reflexivity. Qed.

(** C2.  A bat whose state is [DEAD] is returned unchanged by every later
    [update], and so by every sequence of them: position, velocity, state
    and target position (and every other field) stay as they were, whatever
    the frame times, players and worlds of those calls. *)
Theorem dead_bat_never_changes ci (frames : list Game.frame) (b : Bat.t) :
  Bat.state b = Bat.DEAD ->
  Game.run ci frames b = b.
Proof.
  intros Hdead. unfold Game.run.
  induction frames as [| f frames IH]; simpl; [reflexivity |].
  unfold Game.step at 2. rewrite update_dead by assumption. exact IH.
Qed.

Lemma dead_bat_never_changes_witness :
  Bat.state Scene.bat_dead = Bat.DEAD /\
  Game.run Collision.cylinderIntersection
    [Scene.frame; Scene.frame; Scene.frame] Scene.bat_dead = Scene.bat_dead.
Proof.
  split; [reflexivity |].
  apply (dead_bat_never_changes Collision.cylinderIntersection
           [Scene.frame; Scene.frame; Scene.frame] Scene.bat_dead).
  reflexivity.
Defined.

(** The bat of the witness starts at speed 50. *)
Lemma bat_fast_speed : Vec3.length (Bat.velocity Scene.bat_fast) = 50.
Proof.
  unfold Vec3.length, Vec3.squaredLength; simpl.
  replace (30 * 30 + 0 * 0 + 40 * 40) with (50 * 50) by ring.
  apply sqrt_square; lra.
Qed.

Lemma seek_velocity_bounded_witness :
  0.016 > 0 /\
  Vec3.length (Bat.velocity Scene.bat_fast) > Bat.S_MAX /\
  Vec3.length (Bat.velocity (Bat.seek 0.016 Scene.bat_fast)) <= Bat.S_MAX.
Proof.
  split; [lra | split].
  - rewrite bat_fast_speed. unfold Bat.S_MAX. lra.
  - apply (seek_velocity_bounded 0.016 Scene.bat_fast). lra.
Defined.

Lemma update_flat_collision ci world player random_xz delta_ms (b : Bat.t) :
  Bat.state b <> Bat.DEAD ->
  World.isCylinderCollisionWithDisk world (Bat.position b) (Bat.radius b) 0
    = true ->
  Bat.update ci world player random_xz delta_ms b
  = Bat.set_ignore_timer
      (Bat.set_state
         (if Rlt_dec (Bat.ignore_timer b - delta_ms / 1000) 0
          then Bat.set_ignore_timer b 0
          else Bat.set_ignore_timer b (Bat.ignore_timer b - delta_ms / 1000))
         Bat.DEAD) 1.0.
Proof.
  intros Hlive Hhit. unfold Bat.update.
  destruct (Bat.state b) eqn:Hs; [contradiction | |]; simpl;
    destruct (Rlt_dec _ 0); simpl; rewrite Hhit; reflexivity.
Qed.

(** C5, amended.  The terrain check of [update] asks the world about a
    cylinder of the bat's radius and of half-height zero at the bat's
    position; when a live bat's update gets a hit for it, the bat ends the
    update dead, with [ignore_timer] 1.0, where it was and with the velocity
    it had. *)
Theorem update_flat_collision_kills ci world player random_xz delta_ms
    (b : Bat.t) :
  Bat.state b <> Bat.DEAD ->
  World.isCylinderCollisionWithDisk world (Bat.position b) (Bat.radius b) 0
    = true ->
  let b' := Bat.update ci world player random_xz delta_ms b in
  Bat.state b' = Bat.DEAD /\ Bat.ignore_timer b' = 1.0 /\
  Bat.position b' = Bat.position b /\ Bat.velocity b' = Bat.velocity b.
Proof.
  intros Hlive Hhit. unfold Bat.update.
  destruct (Bat.state b) eqn:Hs; [contradiction | |];
    destruct (Rlt_dec _ 0); simpl; rewrite Hhit; simpl; auto.
Qed.

Lemma update_flat_collision_kills_witness :
  let b := Scene.bat_touching in
  let b' := Game.step Collision.cylinderIntersection b Scene.frame in
  Bat.state b = Bat.PURSUE /\
  Bat.state b' = Bat.DEAD /\ Bat.ignore_timer b' = 1.0 /\
  Bat.position b' = Bat.position b /\ Bat.velocity b' = Bat.velocity b.
Proof.
  cbv zeta. split; [reflexivity |].
  apply (update_flat_collision_kills Collision.cylinderIntersection
           Scene.world Scene.player (mkvec3 3 0 4) 16 Scene.bat_touching).
  - simpl; discriminate.
  - simpl. unfold Collision.cylinderIntersection; simpl. decide_reals.
Defined.

Lemma update_no_flat_collision ci world player random_xz delta_ms
    (b : Bat.t) :
  Bat.state b <> Bat.DEAD ->
  World.isCylinderCollisionWithDisk world (Bat.position b) (Bat.radius b) 0
    = false ->
  let b' := Bat.update ci world player random_xz delta_ms b in
  Bat.state b' =
    (if ci (Bat.position b) (Bat.radius b + 20) (Bat.half_height b + 20)
          (Player.position player) (Player.radius player)
          (Player.half_height player)
     then Bat.PURSUE else Bat.EXPLORE) /\
  Bat.ignore_timer b' =
    (if Rlt_dec (Bat.ignore_timer b - delta_ms / 1000) 0 then 0
     else Bat.ignore_timer b - delta_ms / 1000).
Proof.
  intros Hlive Hmiss. unfold Bat.update.
  destruct (Bat.state b) eqn:Hs; [contradiction | |]; simpl;
    destruct (Rlt_dec _ 0); simpl; rewrite Hmiss;
    repeat (destruct (ci _ _ _ _ _ _); simpl); auto.
Qed.

(** C5 as stated fails at the scene of [Scene.bat_low]: the bat's cylinder
    (radius 0.7, half-height 0.1, centre 0.05 above the disk) collides with
    the disk, yet the bat comes out of [update] pursuing the player, with
    [ignore_timer] 0. *)
Lemma bat_cylinder_collision_missed :
  let b := Scene.bat_low in
  let b' := Game.step Collision.cylinderIntersection b Scene.frame in
  Bat.state b = Bat.EXPLORE /\
  World.isCylinderCollisionWithDisk Scene.world
    (Bat.position b) (Bat.radius b) (Bat.half_height b) = true /\
  Bat.state b' = Bat.PURSUE /\ Bat.ignore_timer b' = 0.
Proof.
  assert (Hfull : World.isCylinderCollisionWithDisk Scene.world
            (Bat.position Scene.bat_low) (Bat.radius Scene.bat_low)
            (Bat.half_height Scene.bat_low) = true).
  { simpl. unfold Collision.cylinderIntersection; simpl. decide_reals. }
  assert (Hflat : World.isCylinderCollisionWithDisk Scene.world
            (Bat.position Scene.bat_low) (Bat.radius Scene.bat_low) 0 = false).
  { simpl. unfold Collision.cylinderIntersection; simpl. decide_reals. }
  assert (Hnear : Collision.cylinderIntersection
            (Bat.position Scene.bat_low) (Bat.radius Scene.bat_low + 20)
            (Bat.half_height Scene.bat_low + 20)
            (Player.position Scene.player) (Player.radius Scene.player)
            (Player.half_height Scene.player) = true).
  { unfold Collision.cylinderIntersection; simpl. decide_reals. }
  assert (Hlive : Bat.state Scene.bat_low <> Bat.DEAD) by (simpl; discriminate).
  destruct (update_no_flat_collision Collision.cylinderIntersection
              Scene.world Scene.player (mkvec3 3 0 4) 16 Scene.bat_low
              Hlive Hflat) as [Hst Htm].
  cbv zeta. unfold Game.step.
  change (Game.frame_world Scene.frame) with Scene.world.
  change (Game.frame_player Scene.frame) with Scene.player.
  change (Game.frame_random_xz Scene.frame) with (mkvec3 3 0 4).
  change (Game.frame_delta_ms Scene.frame) with 16.
  split; [reflexivity | split; [exact Hfull | split]].
  - rewrite Hst, Hnear. reflexivity.
  - rewrite Htm. simpl. decide_reals.
Qed.

(** C10.  Two live bats that agree on everything but [ignore_timer] come
    out of the same [update] call with the same state, position, velocity,
    forward vector and target position. *)
Theorem ignore_timer_never_gates ci world player random_xz delta_ms
    (b1 b2 : Bat.t) :
  Bat.state b1 <> Bat.DEAD ->
  Bat.position b1 = Bat.position b2 ->
  Bat.forward b1 = Bat.forward b2 ->
  Bat.radius b1 = Bat.radius b2 ->
  Bat.half_height b1 = Bat.half_height b2 ->
  Bat.state b1 = Bat.state b2 ->
  Bat.velocity b1 = Bat.velocity b2 ->
  Bat.target_position b1 = Bat.target_position b2 ->
  let b1' := Bat.update ci world player random_xz delta_ms b1 in
  let b2' := Bat.update ci world player random_xz delta_ms b2 in
  Bat.state b1' = Bat.state b2' /\
  Bat.position b1' = Bat.position b2' /\
  Bat.velocity b1' = Bat.velocity b2' /\
  Bat.forward b1' = Bat.forward b2' /\
  Bat.target_position b1' = Bat.target_position b2'.
Proof.
  destruct b1 as [p1 f1 r1 h1 s1 v1 t1 i1], b2 as [p2 f2 r2 h2 s2 v2 t2 i2].
  simpl. intros Hlive -> -> -> -> -> -> ->.
  unfold Bat.update; simpl.
  destruct s2; [contradiction | |];
    destruct (Rlt_dec (i1 - _) 0), (Rlt_dec (i2 - _) 0); simpl;
    destruct (World.isCylinderCollisionWithDisk world p2 r2 0); simpl;
    repeat (destruct (ci _ _ _ _ _ _); simpl); auto.
Qed.

Lemma ignore_timer_never_gates_witness :
  let b1 := Scene.bat_fast in
  let b2 := Bat.set_ignore_timer Scene.bat_fast 0.75 in
  let b1' := Game.step Collision.cylinderIntersection b1 Scene.frame in
  let b2' := Game.step Collision.cylinderIntersection b2 Scene.frame in
  Bat.ignore_timer b1 <> Bat.ignore_timer b2 /\
  Bat.state b1' = Bat.state b2' /\
  Bat.position b1' = Bat.position b2' /\
  Bat.velocity b1' = Bat.velocity b2' /\
  Bat.forward b1' = Bat.forward b2' /\
  Bat.target_position b1' = Bat.target_position b2'.
Proof.
  cbv zeta. split; [simpl; lra |].
  apply (ignore_timer_never_gates Collision.cylinderIntersection
           Scene.world Scene.player (mkvec3 3 0 4) 16
           Scene.bat_fast (Bat.set_ignore_timer Scene.bat_fast 0.75));
    solve [reflexivity | simpl; discriminate].
Defined.

(** The only things [update] does to [ignore_timer]: count it down, floor
    it at zero, and set it to 1.0 when the bat dies. *)
Lemma update_ignore_timer ci world player random_xz delta_ms (b : Bat.t) :
  Bat.state b <> Bat.DEAD ->
  let b' := Bat.update ci world player random_xz delta_ms b in
  Bat.ignore_timer b' =
    if World.isCylinderCollisionWithDisk world (Bat.position b) (Bat.radius b) 0
    then 1.0
    else if Rlt_dec (Bat.ignore_timer b - delta_ms / 1000) 0 then 0
         else Bat.ignore_timer b - delta_ms / 1000.
Proof.
  intros Hlive. unfold Bat.update.
  destruct (Bat.state b) eqn:Hs; [contradiction | |]; simpl;
    destruct (Rlt_dec _ 0); simpl;
    destruct (World.isCylinderCollisionWithDisk _ _ _ _); simpl;
    repeat (destruct (ci _ _ _ _ _ _); simpl); auto.
Qed.

(** ** Speed of a bat over its life *)

(** An [update] in which the bat neither is dead nor hits the terrain runs
    [seek], and ends within [S_MAX]. *)
Lemma update_speed_after_seek ci world player random_xz delta_ms (b : Bat.t) :
  Bat.state b <> Bat.DEAD ->
  World.isCylinderCollisionWithDisk world (Bat.position b) (Bat.radius b) 0
    = false ->
  Vec3.length (Bat.velocity (Bat.update ci world player random_xz delta_ms b))
  <= Bat.S_MAX.
Proof.
  intros Hlive Hmiss. unfold Bat.update.
  destruct (Bat.state b) eqn:Hs; [contradiction | |]; simpl;
    destruct (Rlt_dec _ 0); simpl; rewrite Hmiss;
    repeat (destruct (ci _ _ _ _ _ _); simpl);
    apply truncate_length; unfold Bat.S_MAX; lra.
Qed.

(** A dead bat and a bat that dies in the call keep the velocity they had. *)
Lemma update_speed_preserved ci world player random_xz delta_ms (b : Bat.t) :
  Vec3.length (Bat.velocity b) <= Bat.S_MAX ->
  Vec3.length (Bat.velocity (Bat.update ci world player random_xz delta_ms b))
  <= Bat.S_MAX.
Proof.
  intros Hb.
  destruct (Bat.state b) eqn:Hs.
  - rewrite update_dead by assumption. exact Hb.
  - destruct (World.isCylinderCollisionWithDisk world (Bat.position b)
                (Bat.radius b) 0) eqn:Hc.
    + rewrite update_flat_collision by (try rewrite Hs; easy).
      destruct (Rlt_dec _ 0); exact Hb.
    + apply update_speed_after_seek; [rewrite Hs; discriminate | exact Hc].
  - destruct (World.isCylinderCollisionWithDisk world (Bat.position b)
                (Bat.radius b) 0) eqn:Hc.
    + rewrite update_flat_collision by (try rewrite Hs; easy).
      destruct (Rlt_dec _ 0); exact Hb.
    + apply update_speed_after_seek; [rewrite Hs; discriminate | exact Hc].
Qed.

(** C7, at construction: with the two draws of [Random.randf(0, S_MAX)]
    both 4, the new bat's velocity is (4, 0, 4), of magnitude above
    [S_MAX]. *)
Theorem bat_constructed_too_fast :
  let b := Bat.constructor (mkvec3 0 15 0) (mkvec3 1 0 0) 0.7 0.1 4 4
             (mkvec3 3 0 4) in
  0 <= 4 <= Bat.S_MAX /\
  Bat.velocity b = mkvec3 4 0 4 /\
  Vec3.length (Bat.velocity b) > Bat.S_MAX.
Proof.
  cbv zeta. split; [unfold Bat.S_MAX; lra | split; [reflexivity |]].
  unfold Bat.constructor, Vec3.length, Vec3.squaredLength, Bat.S_MAX; simpl.
  replace 5.0 with (sqrt (5 * 5)) by (rewrite sqrt_square; lra).
  apply sqrt_lt_1_alt. lra.
Qed.

(** ** The forward vector after a steering step *)

(** C8.  When [seek] ends with the zero velocity, [forward] is what it was
    before the call; when it ends with any other velocity, [forward] is that
    velocity divided by its magnitude, and has length 1. *)
Theorem seek_forward (delta_s : R) (b : Bat.t) :
  let b' := Bat.seek delta_s b in
  (Bat.velocity b' = mkvec3 0 0 0 -> Bat.forward b' = Bat.forward b) /\
  (Bat.velocity b' <> mkvec3 0 0 0 ->
   Bat.forward b' =
     Vec3.scale (Bat.velocity b') (1 / Vec3.length (Bat.velocity b')) /\
   Vec3.length (Bat.forward b') = 1).
Proof.
  cbv zeta.
  change (Bat.forward (Bat.seek delta_s b))
    with (Vec3.normalize (Bat.forward b) (Bat.velocity (Bat.seek delta_s b))).
  split.
  - intros ->. apply normalize_zero.
  - intros Hv. apply squaredLength_pos in Hv. split.
    + apply normalize_pos; assumption.
    + apply length_normalize; assumption.
Qed.

(** A bat at rest on its target ends [seek] with the zero velocity. *)
Lemma seek_still :
  Bat.velocity (Bat.seek 0.016 Scene.bat_still) = mkvec3 0 0 0.
Proof.
  unfold Bat.seek; simpl.
  replace (Vec3.sub (mkvec3 0 15 0) (mkvec3 0 15 0)) with (mkvec3 0 0 0)
    by (apply vec3_ext; simpl; ring).
  rewrite normalize_zero.
  replace (Vec3.scale
             (Vec3.sub (Vec3.scale Vec3.create Bat.S_MAX) (mkvec3 0 0 0))
             (1 / 0.016))
    with (mkvec3 0 0 0) by (apply vec3_ext; simpl; lra).
  rewrite truncate_zero by (unfold Bat.A_MAX; lra).
  replace (Vec3.scaleAndAdd (mkvec3 0 0 0) (mkvec3 0 0 0) 0.016)
    with (mkvec3 0 0 0) by (apply vec3_ext; simpl; ring).
  apply truncate_zero. unfold Bat.S_MAX; lra.
Qed.

(** Vectors along the first axis, for concrete steering steps. *)
Lemma length_x (a : vec3) :
  c1 a = 0 -> c2 a = 0 -> 0 <= c0 a -> Vec3.length a = c0 a.
Proof.
  intros H1 H2 H0. unfold Vec3.length, Vec3.squaredLength.
  rewrite H1, H2.
  replace (c0 a * c0 a + 0 * 0 + 0 * 0) with (c0 a * c0 a) by ring.
  apply sqrt_square; assumption.
Qed.

Lemma normalize_x (out a : vec3) :
  c1 a = 0 -> c2 a = 0 -> 0 < c0 a -> Vec3.normalize out a = mkvec3 1 0 0.
Proof.
  intros H1 H2 H0.
  rewrite normalize_pos by (unfold Vec3.squaredLength; nra).
  rewrite length_x by lra.
  apply vec3_ext; simpl; rewrite ?H1, ?H2; field; lra.
Qed.

Lemma truncate_x_over (a : vec3) (max : R) :
  c1 a = 0 -> c2 a = 0 -> 0 <= max -> max < c0 a ->
  MathHelper.vec3_truncate a max = mkvec3 max 0 0.
Proof.
  intros H1 H2 Hmax H0. unfold MathHelper.vec3_truncate.
  rewrite length_x by lra.
  destruct (Rgt_dec (c0 a) max); [| lra].
  rewrite normalize_x by lra. apply vec3_ext; simpl; ring.
Qed.

Lemma truncate_x_under (a : vec3) (max : R) :
  c1 a = 0 -> c2 a = 0 -> 0 <= c0 a <= max ->
  MathHelper.vec3_truncate a max = a.
Proof.
  intros H1 H2 H0. unfold MathHelper.vec3_truncate.
  rewrite length_x by lra.
  destruct (Rgt_dec (c0 a) max); [lra | reflexivity].
Qed.

(** A bat at rest 40 away from its target picks up speed 0.128 towards it. *)
Lemma seek_resting :
  Bat.velocity (Bat.seek 0.016 Scene.bat_resting) = mkvec3 0.128 0 0.
Proof.
  unfold Bat.seek, Bat.S_MAX, Bat.A_MAX; simpl.
  rewrite (normalize_x Vec3.create) by (simpl; lra).
  rewrite (truncate_x_over _ 8.0) by (simpl; lra).
  rewrite (truncate_x_under _ 5.0) by (simpl; lra).
  apply vec3_ext; simpl; lra.
Qed.

Lemma seek_forward_witness :
  Bat.velocity (Bat.seek 0.016 Scene.bat_still) = mkvec3 0 0 0 /\
  Bat.forward (Bat.seek 0.016 Scene.bat_still) = mkvec3 0 0 1 /\
  Bat.velocity (Bat.seek 0.016 Scene.bat_resting) = mkvec3 0.128 0 0 /\
  Vec3.length (Bat.forward (Bat.seek 0.016 Scene.bat_resting)) = 1.
Proof.
  split; [exact seek_still | split; [| split; [exact seek_resting |]]].
  - exact (proj1 (seek_forward 0.016 Scene.bat_still) seek_still).
  - apply (proj2 (seek_forward 0.016 Scene.bat_resting)).
    rewrite seek_resting. intros E. injection E; intros; lra.
Defined.

(** ** The player struck by a bat *)

Lemma hitByBat_grounded_argument (p : Player.t) (bat_velocity : vec3) :
  Player.jumping p = false ->
  snd (Player.hitByBat p bat_velocity) = bat_velocity.
Proof. intros H. unfold Player.hitByBat. rewrite H. reflexivity. Qed.

Lemma hitByBat_jumping_argument (p : Player.t) (bat_velocity : vec3) :
  Player.jumping p = true ->
  snd (Player.hitByBat p bat_velocity)
  = Vec3.normalize bat_velocity bat_velocity.
Proof. intros H. unfold Player.hitByBat. rewrite H. reflexivity. Qed.

(** C9, for an airborne player struck by a bat of velocity (3, 0, 4): after
    the call the vector passed as [bat_velocity] holds (0.6, 0, 0.8), the
    bat's velocity scaled to length 1. *)
Theorem hitByBat_normalizes_argument :
  let p := Player.set_jumping Scene.player true in
  let bat_velocity := mkvec3 3 0 4 in
  Player.jumping p = true /\
  snd (Player.hitByBat p bat_velocity) = mkvec3 0.6 0 0.8 /\
  snd (Player.hitByBat p bat_velocity) <> bat_velocity.
Proof.
  cbv zeta.
  assert (H : snd (Player.hitByBat (Player.set_jumping Scene.player true)
                     (mkvec3 3 0 4)) = mkvec3 0.6 0 0.8).
  { rewrite hitByBat_jumping_argument by reflexivity.
    rewrite normalize_pos by (unfold Vec3.squaredLength; simpl; lra).
    unfold Vec3.length, Vec3.squaredLength; simpl.
    replace (3 * 3 + 0 * 0 + 4 * 4) with (5 * 5) by ring.
    rewrite sqrt_square by lra.
    apply vec3_ext; simpl; lra. }
  split; [reflexivity | split; [exact H |]].
  rewrite H. intros E. injection E; intros; lra.
Qed.

(** C6, amended.  A grounded player struck by a bat whose velocity has a
    horizontal part gets, as its whole velocity, that horizontal direction
    scaled to speed 5 together with vertical speed 5, and is set jumping
    with the animation "Jumping". *)
Theorem hitByBat_grounded_launch (p : Player.t) (bat_velocity : vec3) :
  Player.jumping p = false ->
  c0 bat_velocity <> 0 \/ c2 bat_velocity <> 0 ->
  let p' := fst (Player.hitByBat p bat_velocity) in
  let v := Player.velocity p' in
  let h := sqrt (c0 bat_velocity * c0 bat_velocity
                 + c2 bat_velocity * c2 bat_velocity) in
  v = mkvec3 (5 * (c0 bat_velocity / h)) 5 (5 * (c2 bat_velocity / h)) /\
  sqrt (c0 v * c0 v + c2 v * c2 v) = 5 /\
  c1 v = 5 /\
  Player.jumping p' = true /\
  Player.model_state (Player.model p') = Player.Jumping.
Proof.
  intros Hj Hnz. cbv zeta. unfold Player.hitByBat. rewrite Hj. simpl.
  destruct bat_velocity as [bx byy bz]; simpl in *.
  set (q := bx * bx + bz * bz).
  assert (Hq : q > 0) by (unfold q; destruct Hnz; nra).
  assert (Hh : 0 < sqrt q) by (apply sqrt_lt_R0; lra).
  assert (Hn : Vec3.normalize (mkvec3 bx 0 bz) (mkvec3 bx 0 bz)
               = mkvec3 (bx / sqrt q) 0 (bz / sqrt q)).
  { rewrite normalize_pos
      by (unfold Vec3.squaredLength; simpl; unfold q in Hq; lra).
    unfold Vec3.length, Vec3.squaredLength; simpl.
    replace (bx * bx + 0 * 0 + bz * bz) with q by (unfold q; ring).
    apply vec3_ext; simpl; unfold Rdiv; ring. }
  unfold Vec3.copy, Vec3.set1; simpl. rewrite Hn; simpl.
  repeat split.
  - apply vec3_ext; simpl; lra.
  - replace 5.0 with 5 by lra.
    replace (bx / sqrt q * 5 * (bx / sqrt q * 5)
             + bz / sqrt q * 5 * (bz / sqrt q * 5))
      with (5 * 5 * ((bx * bx + bz * bz) / (sqrt q * sqrt q)))
      by (field; lra).
    rewrite sqrt_sqrt by lra. fold q.
    replace (5 * 5 * (q / q)) with (5 * 5) by (field; lra).
    apply sqrt_square; lra.
  - lra.
Qed.

(** The scenario of the specification: bat velocity (1, 0, 0) launches the
    standing player with velocity (5, 5, 0). *)
Lemma hitByBat_grounded_launch_witness :
  let p' := fst (Player.hitByBat Scene.player (mkvec3 1 0 0)) in
  Player.jumping Scene.player = false /\
  Player.velocity p' = mkvec3 5 5 0 /\
  Player.jumping p' = true.
Proof.
  cbv zeta.
  destruct (hitByBat_grounded_launch Scene.player (mkvec3 1 0 0) eq_refl
              (or_introl R1_neq_R0)) as (Hv & _ & _ & Hj & _).
  split; [reflexivity | split; [| exact Hj]].
  rewrite Hv; simpl.
  replace (1 * 1 + 0 * 0) with 1 by ring. rewrite sqrt_1.
  apply vec3_ext; simpl; lra.
Defined.

(** C6 as stated fails for a bat moving straight down: the standing player
    is launched with velocity (0, 5, 0), of horizontal speed 0. *)
Lemma hitByBat_vertical_bat :
  let p' := fst (Player.hitByBat Scene.player (mkvec3 0 (-5) 0)) in
  let v := Player.velocity p' in
  Player.jumping Scene.player = false /\
  v = mkvec3 0 5 0 /\
  sqrt (c0 v * c0 v + c2 v * c2 v) <> 5.
Proof.
  cbv zeta.
  assert (H : Player.velocity
                (fst (Player.hitByBat Scene.player (mkvec3 0 (-5) 0)))
              = mkvec3 0 5 0).
  { unfold Player.hitByBat; simpl. unfold Vec3.copy, Vec3.set1; simpl.
    rewrite normalize_zero. apply vec3_ext; simpl; lra. }
  split; [reflexivity | split; [exact H |]].
  rewrite H; simpl. replace (0 * 0 + 0 * 0) with 0 by ring.
  rewrite sqrt_0. lra.
Qed.

(** ** The airborne player meeting a disk *)

(** C4.  In an [update] of a jumping player whose predicted position
    collides with a disk: if the old position collided too, the player is
    grounded ("Standing"), its vertical velocity is zero, its height is the
    terrain height under the predicted position plus the half-height, and
    its horizontal velocity is what it was; otherwise its horizontal
    velocity is zero and its horizontal position is the old one, while the
    vertical velocity and height are those of free flight (gravity added to
    the vertical velocity, the old vertical velocity integrated into the
    height) and the player stays jumping. *)
Theorem jumping_collision_response (world : World.t) (delta_time_ms : R)
    (ms : Player.module_state) (p : Player.t) :
  let dt := delta_time_ms / 1000 in
  let r := Player.model_radius (Player.model p) in
  let hh := Player.model_half_height (Player.model p) in
  let predicted :=
    Vec3.scaleAndAdd (Player.position p) (Player.velocity p) dt in
  let p' := snd (Player.update world delta_time_ms (ms, p)) in
  Player.jumping p = true ->
  World.isCylinderCollisionWithDisk world predicted r hh = true ->
  (World.isCylinderCollisionWithDisk world (Player.position p) r hh = true ->
   Player.jumping p' = false /\
   Player.model_state (Player.model p') = Player.Standing /\
   c1 (Player.velocity p') = 0 /\
   c1 (Player.position p')
   = World.getHeightAtCirclePosition world (c0 predicted) (c2 predicted) r
     + hh /\
   c0 (Player.position p') = c0 predicted /\
   c2 (Player.position p') = c2 predicted /\
   c0 (Player.velocity p') = c0 (Player.velocity p) /\
   c2 (Player.velocity p') = c2 (Player.velocity p)) /\
  (World.isCylinderCollisionWithDisk world (Player.position p) r hh = false ->
   c0 (Player.velocity p') = 0 /\
   c2 (Player.velocity p') = 0 /\
   c0 (Player.position p') = c0 (Player.position p) /\
   c2 (Player.position p') = c2 (Player.position p) /\
   c1 (Player.velocity p') = c1 (Player.velocity p) + -9.8 * dt /\
   c1 (Player.position p')
   = c1 (Player.position p) + c1 (Player.velocity p) * dt /\
   Player.jumping p' = true).
Proof.
  cbv zeta. intros Hj Hnew. unfold Player.update. rewrite Hj.
  cbn [Player.set_old_pos Player.set_new_pos Player.new_pos Player.old_pos
       Player.set_velocity Player.model Player.velocity Player.position].
  unfold Vec3.copy. rewrite Hnew.
  split; intros Hold; rewrite Hold; simpl; repeat split;
    try reflexivity; try assumption; try lra.
Qed.

Lemma jumping_collision_response_witness :
  let p' := snd (Player.update Scene.world 16
                   (Player.initial_module_state, Scene.player_falling)) in
  Player.jumping Scene.player_falling = true /\
  Player.jumping p' = false /\
  c1 (Player.velocity p') = 0 /\
  c1 (Player.position p') = 0.8.
Proof.
  cbv zeta.
  assert (Hnew : World.isCylinderCollisionWithDisk Scene.world
            (Vec3.scaleAndAdd (Player.position Scene.player_falling)
               (Player.velocity Scene.player_falling) (16 / 1000))
            (Player.model_radius (Player.model Scene.player_falling))
            (Player.model_half_height (Player.model Scene.player_falling))
          = true).
  { simpl. unfold Collision.cylinderIntersection; simpl. decide_reals. }
  assert (Hold : World.isCylinderCollisionWithDisk Scene.world
            (Player.position Scene.player_falling)
            (Player.model_radius (Player.model Scene.player_falling))
            (Player.model_half_height (Player.model Scene.player_falling))
          = true).
  { simpl. unfold Collision.cylinderIntersection; simpl. decide_reals. }
  destruct (jumping_collision_response Scene.world 16
              Player.initial_module_state Scene.player_falling
              eq_refl Hnew) as [Hland _].
  destruct (Hland Hold) as (Hj & _ & Hv & Hy & _).
  split; [reflexivity | split; [exact Hj | split; [exact Hv |]]].
  rewrite Hy. simpl.
  unfold DiskWorld.covers, Collision.cylinderIntersection; simpl.
  unfold DiskWorld.NO_TERRAIN, Rmax. decide_reals.
Defined.

(** ** Sliding of the grounded player *)

Lemma lowest_cons world x z i l m :
  Sliding.lowest world x z (i :: l) m
  = Sliding.lowest world x z l
      (if Rlt_dec (Sliding.sample_height world x z i) m
       then Sliding.sample_height world x z i else m).
Proof. reflexivity. Qed.

Lemma lowest_le world x z l : forall m, Sliding.lowest world x z l m <= m.
Proof.
  induction l as [| i l IH]; intros m; [unfold Sliding.lowest; simpl; lra |].
  rewrite lowest_cons.
  destruct (Rlt_dec _ m) as [H | H]; [| apply IH].
  eapply Rle_trans; [apply IH | lra].
Qed.

Lemma lowest_none_below world x z l : forall m,
  (forall i, In i l -> ~ Sliding.sample_height world x z i < m) ->
  Sliding.lowest world x z l m = m.
Proof.
  induction l as [| i l IH]; intros m Hall; [reflexivity |].
  rewrite lowest_cons.
  destruct (Rlt_dec _ m) as [H | H].
  - exfalso; apply (Hall i); [left; reflexivity | exact H].
  - apply IH. intros j Hj. apply Hall; right; exact Hj.
Qed.

Lemma slope_sample_step world x z ms mh i :
  Player.slope_sample world x z (ms, mh) i
  = if Rlt_dec (Sliding.sample_height world x z i) mh
    then (Player.set_min_direction
            (Player.write ms Player.obj_dir (Sliding.sample_dir i))
            Player.obj_dir,
          Sliding.sample_height world x z i)
    else (Player.write ms Player.obj_dir (Sliding.sample_dir i), mh).
Proof. reflexivity. Qed.

Lemma slope_loop_result world x z l : forall ms mh,
  let r := fold_left (Player.slope_sample world x z) l (ms, mh) in
  snd r = Sliding.lowest world x z l mh /\
  Player.min_direction (fst r)
  = (if Rlt_dec (Sliding.lowest world x z l mh) mh
     then Player.obj_dir else Player.min_direction ms) /\
  (l <> [] -> Player.heap_dir (fst r) = Sliding.sample_dir (last l 0%nat)) /\
  Player.heap_min_direction (fst r) = Player.heap_min_direction ms /\
  Player.new_pos (fst r) = Player.new_pos ms.
Proof.
  induction l as [| i l IH]; intros ms mh; cbv zeta.
  - simpl. destruct (Rlt_dec mh mh); [lra |]. repeat split; auto. congruence.
  - cbn [fold_left]. rewrite slope_sample_step.
    rewrite lowest_cons.
    destruct (Rlt_dec (Sliding.sample_height world x z i) mh) as [Hlt | Hge].
    + specialize (IH (Player.set_min_direction
                        (Player.write ms Player.obj_dir (Sliding.sample_dir i))
                        Player.obj_dir)
                     (Sliding.sample_height world x z i)).
      cbv zeta in IH. destruct IH as (H1 & H2 & H3 & H4 & H5).
      rewrite H1, H2, H4, H5.
      pose proof (lowest_le world x z l (Sliding.sample_height world x z i)).
      repeat split; auto.
      * destruct (Rlt_dec _ mh); [| lra].
        destruct (Rlt_dec _ _); reflexivity.
      * intros _. destruct l as [| j l']; [reflexivity |].
        rewrite H3 by discriminate. reflexivity.
    + specialize (IH (Player.write ms Player.obj_dir (Sliding.sample_dir i)) mh).
      cbv zeta in IH. destruct IH as (H1 & H2 & H3 & H4 & H5).
      rewrite H1, H2, H4, H5.
      repeat split; auto.
      intros _. destruct l as [| j l']; [reflexivity |].
      rewrite H3 by discriminate. reflexivity.
Qed.

Lemma new_pos_write ms r v :
  Player.new_pos (Player.write ms r v) = Player.new_pos ms.
Proof. destruct r; reflexivity. Qed.

(** What the sliding step of a grounded [update] does once some sample lies
    below the base height: the acceleration added to the (friction-damped)
    velocity is along the contents of [dir] after the last turn, whichever
    turn found the lowest height. *)
Lemma sliding_acceleration (world : World.t) (delta_time_ms : R)
    (ms : Player.module_state) (p : Player.t) :
  let dt := delta_time_ms / 1000 in
  let r := Player.model_radius (Player.model p) in
  let predicted :=
    Vec3.scaleAndAdd (Player.position p) (Player.velocity p) dt in
  let x := c0 predicted in
  let z := c2 predicted in
  let base := World.getHeightAtCirclePosition world x z r in
  let low := Sliding.lowest world x z (seq 0 60) base in
  let slope := (base - low) / 0.01 in
  let min_slope := World.getSlopeFactorAtPosition world x z in
  let friction := World.getFrictionAtPosition world x z in
  let p' := snd (Player.update world delta_time_ms (ms, p)) in
  Player.jumping p = false ->
  World.isOnDisk world x z r = true ->
  slope > min_slope ->
  low < base ->
  Player.velocity p'
  = Vec3.add
      (Vec3.scale (Vec3.set1 (Player.velocity p) 0)
         (Player.Math_pow friction dt))
      (Vec3.scale
         (mkvec3 (d0 (Sliding.sample_dir 59)) 0 (d1 (Sliding.sample_dir 59)))
         ((slope - min_slope) * 10.0 * dt)).
Proof.
  cbv zeta. intros Hj Hon Hslope Hlow.
  unfold Player.update. rewrite Hj.
  cbn [Player.set_old_pos Player.set_new_pos Player.new_pos Player.old_pos
       Player.set_velocity Player.model Player.velocity Player.position].
  rewrite Hon.
  rewrite !new_pos_write.
  cbn [Player.new_pos Vec3.set1 c0 c1 c2].
  unfold Player.slope_loop.
  match goal with
  | |- context [fold_left (Player.slope_sample ?w ?x ?z) ?l (?s, ?h)] =>
      pose proof (slope_loop_result w x z l s h) as Hloop;
      cbv zeta in Hloop;
      destruct (fold_left (Player.slope_sample w x z) l (s, h)) as [ms' mh']
  end.
  cbn [fst snd] in Hloop.
  destruct Hloop as (H1 & H2 & H3 & _ & _).
  subst mh'.
  destruct (Rlt_dec _ _) as [_ | Hno] in H2; [| contradiction].
  assert (Hdir : Player.heap_dir ms' = Sliding.sample_dir 59)
    by (apply H3; discriminate).
  match goal with |- context [Rgt_dec ?a ?b] =>
    destruct (Rgt_dec a b) as [_ | Hno]; [| contradiction] end.
  cbn [snd Player.set_position Player.velocity].
  unfold Player.addAcceleration.
  cbn [Player.jumping Player.set_velocity negb Player.velocity
       Player.set_accel Player.accel Player.min_direction].
  rewrite Hj. cbn [negb Player.velocity Player.set_velocity].
  rewrite H2. cbn [Player.read Player.heap_dir]. rewrite Hdir.
  reflexivity.
Qed.

(** Every sampled direction has length 1, so the acceleration of
    [sliding_acceleration] has the magnitude of its factor. *)
Lemma sliding_acceleration_magnitude (i : nat) (a : R) :
  Vec3.length
    (Vec3.scale
       (mkvec3 (d0 (Sliding.sample_dir i)) 0 (d1 (Sliding.sample_dir i))) a)
  = Rabs a.
Proof.
  rewrite length_scale.
  replace (Vec3.length _) with 1; [ring |].
  unfold Vec3.length, Vec3.squaredLength, Sliding.sample_dir,
    MathHelper.vec2_rotate, Vec2.set; simpl.
  set (t := PI * 2 * (INR i / 60)).
  pose proof (sin2_cos2 t) as H. unfold Rsqr in H.
  replace ((1 * cos t - 0 * sin t) * (1 * cos t - 0 * sin t) + 0 * 0
           + (1 * sin t + 0 * cos t) * (1 * sin t + 0 * cos t))
    with 1 by lra.
  symmetry; apply sqrt_1.
Qed.

Lemma cos_lt_1 (x : R) : 0 < x < 2 * PI -> cos x < 1.
Proof.
  intros [H0 H1].
  replace x with (2 * (x / 2)) by field.
  rewrite cos_2a_sin.
  assert (Hs : 0 < sin (x / 2)) by (apply sin_gt_0; lra).
  nra.
Qed.

Lemma sample_angle_range (i : nat) :
  (0 < i < 60)%nat -> 0 < PI * 2 * (INR i / 60) < 2 * PI.
Proof.
  intros [H0 H1]. apply lt_0_INR in H0. apply lt_INR in H1.
  replace (INR 60) with 60 in H1 by (simpl; lra).
  pose proof PI_RGT_0. split; nra.
Qed.

Lemma sample_dir_0 : Sliding.sample_dir 0 = mkvec2 1 0.
Proof.
  unfold Sliding.sample_dir, MathHelper.vec2_rotate, Vec2.set; simpl.
  replace (PI * 2 * (0 / 60)) with 0 by lra.
  rewrite cos_0, sin_0. f_equal; ring.
Qed.

Lemma ramp_sample (i : nat) :
  Sliding.sample_height Scene.ramp 0 0 i
  = Scene.ramp_height (cos (PI * 2 * (INR i / 60)) * 0.01)
      (sin (PI * 2 * (INR i / 60)) * 0.01).
Proof.
  unfold Sliding.sample_height, Sliding.sample_dir, MathHelper.vec2_rotate,
    Vec2.set; simpl.
  f_equal; lra.
Qed.

Lemma ramp_sample_0 : Sliding.sample_height Scene.ramp 0 0 0 = -0.01.
Proof.
  rewrite ramp_sample. simpl.
  replace (PI * 2 * (0 / 60)) with 0 by lra. rewrite cos_0.
  unfold Scene.ramp_height. destruct (Rle_dec _ 0); lra.
Qed.

Lemma ramp_sample_ge (i : nat) :
  -0.01 <= Sliding.sample_height Scene.ramp 0 0 i.
Proof.
  rewrite ramp_sample. unfold Scene.ramp_height.
  pose proof (COS_bound (PI * 2 * (INR i / 60))).
  destruct (Rle_dec _ 0); lra.
Qed.

Lemma ramp_sample_gt (i : nat) :
  (0 < i < 60)%nat -> -0.01 < Sliding.sample_height Scene.ramp 0 0 i.
Proof.
  intros Hi. rewrite ramp_sample. unfold Scene.ramp_height.
  pose proof (cos_lt_1 _ (sample_angle_range i Hi)).
  destruct (Rle_dec _ 0); lra.
Qed.

Lemma ramp_lowest : Sliding.lowest Scene.ramp 0 0 (seq 0 60) 0 = -0.01.
Proof.
  change (seq 0 60) with (0%nat :: seq 1 59). rewrite lowest_cons.
  rewrite ramp_sample_0.
  destruct (Rlt_dec (-0.01) 0); [| lra].
  apply lowest_none_below. intros i _.
  pose proof (ramp_sample_ge i). lra.
Qed.

(** C3, at the scene of [Scene.ramp]: the player stands at the origin, the
    samples are taken around (0, 0), and the lowest of them, below the base
    height 0 and below every other sample, is the one of direction 0, which
    is (1, 0).  The velocity after [update] is 0.08 times the direction of
    the last turn, 59, and its component along z is negative, where an
    acceleration along (1, 0) has none. *)
Theorem sliding_follows_last_sample :
  let p' := snd (Player.update Scene.ramp 16
                   (Player.initial_module_state, Scene.player)) in
  let h := Sliding.sample_height Scene.ramp 0 0 in
  Player.jumping Scene.player = false /\
  Sliding.sample_dir 0 = mkvec2 1 0 /\
  h 0%nat < 0 /\
  (forall i, (0 < i < 60)%nat -> h 0%nat < h i) /\
  Player.velocity p'
  = Vec3.scale
      (mkvec3 (d0 (Sliding.sample_dir 59)) 0 (d1 (Sliding.sample_dir 59)))
      0.08 /\
  c2 (Player.velocity p') < 0.
Proof.
  cbv zeta.
  assert (Hv : Player.velocity
                 (snd (Player.update Scene.ramp 16
                         (Player.initial_module_state, Scene.player)))
               = Vec3.scale
                   (mkvec3 (d0 (Sliding.sample_dir 59)) 0
                      (d1 (Sliding.sample_dir 59))) 0.08).
  { pose proof (sliding_acceleration Scene.ramp 16
                  Player.initial_module_state Scene.player) as H.
    cbv zeta in H.
    change (Player.position Scene.player) with (mkvec3 0 0.8 0) in H.
    change (Player.velocity Scene.player) with (mkvec3 0 0 0) in H.
    cbn [Vec3.scaleAndAdd c0 c1 c2 Player.model Scene.player
         Player.model_radius World.getHeightAtCirclePosition Scene.ramp
         World.getSlopeFactorAtPosition World.getFrictionAtPosition
         World.isOnDisk Player.jumping] in H.
    replace (0 + 0 * (16 / 1000)) with 0 in H by lra.
    assert (Hbase : Scene.ramp_height (0 - 0.25) 0 = 0)
      by (unfold Scene.ramp_height; destruct (Rle_dec _ 0); lra).
    rewrite Hbase, ramp_lowest in H.
    rewrite H by (try reflexivity; lra).
    apply vec3_ext; simpl; lra. }
  split; [reflexivity |].
  split; [exact sample_dir_0 |].
  split; [rewrite ramp_sample_0; lra |].
  split; [intros i Hi; rewrite ramp_sample_0; apply ramp_sample_gt, Hi |].
  split; [exact Hv |].
  rewrite Hv. unfold Sliding.sample_dir, MathHelper.vec2_rotate, Vec2.set.
  simpl.
  assert (Hs : sin (PI * 2 * (INR 59 / 60)) < 0).
  { replace (INR 59) with 59 by (simpl; lra).
    pose proof PI_RGT_0. apply sin_lt_0; lra. }
  simpl in Hs. lra.
Qed.
